(** * The Flask example server of 04-WebAPIs/C2-Preliminaries_Running_Flask_WebServer

    A shallow embedding of the notebook's code cell: the global
    [visitor_counter], the two route handlers [hello_world] and [hello_nyu],
    [start_server] and [stop_server], together with the small part of
    Python, Flask and werkzeug that the cell calls into. *)

From stdpp Require Import base strings gmap list pretty.

Local Open Scope Z_scope.

(** ** The fragment of Python the cell uses *)

Module Py.

(** Exceptions that the modelled calls can raise. *)
Inductive exn :=
  | TypeError (msg : string)
  | RuntimeError (msg : string)
  | OSError (errno : Z).

(** How a call ends: it returns, an exception leaves it, or it is still
    waiting for input when the observed trace of inputs is used up. *)
Inductive outcome (A : Type) :=
  | Ret (a : A)
  | Raise (e : exn)
  | Blocked.
Arguments Ret {A} a.
Arguments Raise {A} e.
Arguments Blocked {A}.

(** [str(n)] for an [int]: decimal digits, a leading minus sign for
    negative numbers. *)
Definition str_int (n : Z) : string := pretty n.

(** [datetime.date]: the three fields of a calendar date. *)
Record date := Date { year : Z; month : Z; day : Z }.

Fixpoint zeros (n : nat) : string :=
  match n with
  | O => EmptyString
  | S k => "0" +:+ zeros k
  end.

(** The printf conversion %0<width>d of an [int]. *)
Definition fmt_0d (width : nat) (n : Z) : string :=
  if bool_decide (n < 0) then
    let digits := str_int (- n) in
    "-" +:+ zeros (width - 1 - String.length digits) +:+ digits
  else
    let digits := str_int n in
    zeros (width - String.length digits) +:+ digits.

(** [date.isoformat], which is also [str(date)]: the conversion
    %04d-%02d-%02d of (year, month, day). *)
Definition isoformat (d : date) : string :=
  fmt_0d 4 (year d) +:+ "-" +:+ fmt_0d 2 (month d) +:+ "-" +:+ fmt_0d 2 (day d).

(** The dates [datetime.date] can hold. *)
Definition days_in_month (y m : Z) : Z :=
  if bool_decide (m = 2) then
    if bool_decide (y mod 4 = 0 ∧ (y mod 100 ≠ 0 ∨ y mod 400 = 0)) then 29 else 28
  else if bool_decide (m ∈ [4; 6; 9; 11]) then 30
  else 31.

Definition valid_date (d : date) : bool :=
  bool_decide (1 ≤ year d ≤ 9999) && bool_decide (1 ≤ month d ≤ 12)
  && bool_decide (1 ≤ day d ≤ days_in_month (year d) (month d)).

(** Values found in a WSGI environ.  The only callable the cell looks for
    is the closure [shutdown_server] that werkzeug's request handler stores
    under the key werkzeug.server.shutdown. *)
Inductive val :=
  | PyNone
  | PyStr (s : string)
  | PyInt (n : Z)
  | PyShutdownServer.

Definition type_name (v : val) : string :=
  match v with
  | PyNone => "NoneType"
  | PyStr _ => "str"
  | PyInt _ => "int"
  | PyShutdownServer => "function"
  end.

End Py.
Export Py.

Abbreviation environ := (gmap string val).

(** ** The state the cell runs in *)

Record response := Response { status : Z; body : string }.

(** What a client that connects gets back. *)
Inductive reply :=
  | Reply (r : response)
  | ConnectionRefused.

(** A request as the serving loop receives it: the path asked for, the WSGI
    environ built for it, and the system date when it arrives. *)
Record request := Request { path : string; wsgi_environ : environ; arrival : date }.

Record World := mkWorld {
  visitor_counter : Z;                (* the global of the cell *)
  listening : bool;                   (* the server socket is bound and served *)
  shutdown_signal : bool;             (* werkzeug's [server.shutdown_signal] *)
  bound_ports : gset Z;               (* TCP ports in use on the host *)
  bind_log : list Z;                  (* every bind attempted by the process *)
  wire : list (string * reply);       (* requested path and its reply, oldest first *)
  clock : date                        (* the system date *)
}.

Definition with_visitor_counter (n : Z) (w : World) : World :=
  mkWorld n (listening w) (shutdown_signal w) (bound_ports w) (bind_log w) (wire w) (clock w).
Definition with_listening (b : bool) (w : World) : World :=
  mkWorld (visitor_counter w) b (shutdown_signal w) (bound_ports w) (bind_log w) (wire w) (clock w).
Definition with_shutdown_signal (b : bool) (w : World) : World :=
  mkWorld (visitor_counter w) (listening w) b (bound_ports w) (bind_log w) (wire w) (clock w).
Definition with_bound_ports (ps : gset Z) (w : World) : World :=
  mkWorld (visitor_counter w) (listening w) (shutdown_signal w) ps (bind_log w) (wire w) (clock w).
Definition with_bind_log (l : list Z) (w : World) : World :=
  mkWorld (visitor_counter w) (listening w) (shutdown_signal w) (bound_ports w) l (wire w) (clock w).
Definition with_wire (l : list (string * reply)) (w : World) : World :=
  mkWorld (visitor_counter w) (listening w) (shutdown_signal w) (bound_ports w) (bind_log w) l (clock w).
Definition with_clock (d : date) (w : World) : World :=
  mkWorld (visitor_counter w) (listening w) (shutdown_signal w) (bound_ports w) (bind_log w) (wire w) d.

(** ** Computations

    A computation reads the request context (flask's [request] proxy: the
    environ of the request being served, if any), threads the world and ends
    in an [outcome].  An exception or a block keeps the world as it was when
    it happened. *)

Definition M (A : Type) : Type := option environ → World → outcome A * World.

Definition ret {A} (a : A) : M A := λ _ w, (Ret a, w).
Definition bind {A B} (m : M A) (k : A → M B) : M B :=
  λ ctx w,
    match m ctx w with
    | (Ret a, w') => k a ctx w'
    | (Raise e, w') => (Raise e, w')
    | (Blocked, w') => (Blocked, w')
    end.
Definition raise {A} (e : exn) : M A := λ _ w, (Raise e, w).
Definition block {A} : M A := λ _ w, (Blocked, w).
Definition get {A} (f : World → A) : M A := λ _ w, (Ret (f w), w).
Definition modify (f : World → World) : M () := λ _ w, (Ret (), f w).
Definition ask : M (option environ) := λ ctx w, (Ret ctx, w).

Declare Scope py_scope.
Delimit Scope py_scope with py.
Notation "x <- m ;; k" := (bind m (λ x, k))
  (at level 100, m at next level, right associativity) : py_scope.
Notation "m ;;; k" := (bind m (λ _, k))
  (at level 100, right associativity) : py_scope.
Local Open Scope py_scope.

(** The world a computation leaves behind, and how it ended. *)
Definition world_after {A} (r : outcome A * World) : World := r.2.
Definition ending {A} (r : outcome A * World) : outcome A := r.1.

(** ** The code cell

    [visitor_counter = 0] and [webserver = Flask(...)] at the top of the cell
    give the world the cell starts from: the counter is zero and the server
    object exists but serves nothing. *)

Definition epoch : date := Date 1970 1 1.

Definition init_world : World :=
  mkWorld 0 false false ∅ [] [] epoch.

(** [datetime.date.today()] *)
Definition date_today : M date := get clock.

(** [def hello_world()]: the call of [stop_server] in its first line is
    commented out in the cell, so the body is the return statement. *)
Definition hello_world : M string :=
  today <- date_today ;;
  ret ("Hello Panos, it is now " +:+ isoformat today).

(** [def hello_nyu()]: here too the call of [stop_server] is commented out. *)
Definition hello_nyu : M string :=
  n <- get visitor_counter ;;
  modify (with_visitor_counter (n + 1)) ;;;
  i <- get visitor_counter ;;
  ret ("Hello! You are visitor #" +:+ str_int i).

(** The two [@webserver.route] decorators: the URL map of [webserver]. *)
Definition webserver : gmap string (M string) :=
  {[ "/" := hello_world; "/testNYU" := hello_nyu ]}.

(** [request.environ]: outside a request context flask's proxy raises. *)
Definition request_environ : M environ :=
  ctx <- ask ;;
  match ctx with
  | Some env => ret env
  | None => raise (RuntimeError "Working outside of request context.")
  end.

(** Calling a value: the shutdown closure sets the signal of the server,
    anything else is not callable. *)
Definition call (f : val) : M () :=
  match f with
  | PyShutdownServer => modify (with_shutdown_signal true)
  | v => raise (TypeError ("'" +:+ type_name v +:+ "' object is not callable"))
  end.

(** [def stop_server()]; [dict.get] gives [None] for a missing key. *)
Definition stop_server : M () :=
  env <- request_environ ;;
  let shutdown_after_request := default PyNone (env !! "werkzeug.server.shutdown") in
  call shutdown_after_request ;;;
  ret ().

(** ** The framework under the cell

    Flask and werkzeug are not part of the repository.  The definitions of
    this section follow the specification's description of them. *)

(** Modelled from the spec: the framework's dispatch (section 6, HTTP
    surface).  A request for a registered path runs the handler inside a
    request context and wraps the returned string in a 200 response; an
    unknown path is answered 404 and a handler that raises 500. *)
Definition dispatch (url_map : gmap string (M string)) (r : request) : M response :=
  match url_map !! path r with
  | None => ret (Response 404 "Not Found")
  | Some view =>
      λ _ w,
        match view (Some (wsgi_environ r)) w with
        | (Ret s, w') => (Ret (Response 200 s), w')
        | (Raise _, w') => (Ret (Response 500 "Internal Server Error"), w')
        | (Blocked, w') => (Blocked, w')
        end
  end.

(** Modelled from the spec: one turn of the serving loop (section 4.1,
    stop: the loop ceases to accept connections after completing the
    in-flight response).  The response is written first, then the shutdown
    signal is looked at. *)
Definition handle_request (url_map : gmap string (M string)) (r : request) : M () :=
  modify (with_clock (arrival r)) ;;;
  resp <- dispatch url_map r ;;
  modify (λ w, with_wire (wire w ++ [(path r, Reply resp)]) w) ;;;
  stop <- get shutdown_signal ;;
  if stop then modify (with_listening false) else ret ().

(** Modelled from the spec: the serving loop (section 5: single-threaded
    and blocking, no timeout).  It sits in [Blocked] when the observed
    requests are used up; once the server no longer listens, later clients
    are refused. *)
Fixpoint serve_forever (url_map : gmap string (M string)) (incoming : list request) : M () :=
  up <- get listening ;;
  if up then
    match incoming with
    | [] => block
    | r :: rest => handle_request url_map r ;;; serve_forever url_map rest
    end
  else
    modify (λ w, with_wire (wire w ++ ((λ r, (path r, ConnectionRefused)) <$> incoming)) w).

(** Modelled from the spec: the loop followed by the release of the port
    when it ends. *)
Definition serve_until_shutdown (url_map : gmap string (M string)) (port : Z)
    (incoming : list request) : M () :=
  serve_forever url_map incoming ;;;
  modify (λ w, with_bound_ports (bound_ports w ∖ {[port]}) w).

(** Modelled from the spec: the listen call [webserver.run(host, port)]
    (section 4.1, start and failure semantics).  A port already in use makes
    the bind fail with EADDRINUSE (errno 98); otherwise the port is taken,
    the shutdown signal cleared and the loop entered. *)
Definition run (url_map : gmap string (M string)) (host : string) (port : Z)
    (incoming : list request) : M () :=
  modify (λ w, with_bind_log (bind_log w ++ [port]) w) ;;;
  ports <- get bound_ports ;;
  if bool_decide (port ∈ ports) then raise (OSError 98)
  else
    modify (with_bound_ports ({[port]} ∪ ports)) ;;;
    modify (with_shutdown_signal false) ;;;
    modify (with_listening true) ;;;
    serve_until_shutdown url_map port incoming.

(** ** Starting the server *)

(** [def start_server()].  The extra argument is the input of the blocking
    call: the requests that arrive while it runs. *)
Definition start_server (incoming : list request) : M () :=
  modify (with_visitor_counter 0) ;;;
  run webserver "0.0.0.0" 5000 incoming ;;;
  ret ().

(** The last line of the cell. *)
Definition cell (incoming : list request) : outcome () * World :=
  start_server incoming None init_world.

(** ** The life of the server, event by event *)

(** The two flags of the server object give three situations: not serving,
    serving, and serving with a shutdown asked for but not yet carried out. *)
Inductive ServerState :=
  | Stopped
  | Running
  | Stopping.

Definition server_state (w : World) : ServerState :=
  if listening w then
    if shutdown_signal w then Stopping else Running
  else Stopped.

Inductive event :=
  | CallStart              (* [start_server()] is called *)
  | Arrive (r : request)   (* a client connects to port 5000 *)
  | OsBind (p : Z)         (* another process takes a port *)
  | OsRelease (p : Z).     (* another process gives a port up *)

(** One event.  A client that arrives while the loop is blocked wakes it up
    for one turn; the port the server itself holds cannot be released by
    anybody else. *)
Definition step (w : World) (e : event) : World :=
  match e with
  | CallStart => world_after (start_server [] None w)
  | Arrive r =>
      if listening w then world_after (serve_until_shutdown webserver 5000 [r] None w)
      else world_after (serve_forever webserver [r] None w)
  | OsBind p => with_bound_ports ({[p]} ∪ bound_ports w) w
  | OsRelease p =>
      if listening w && bool_decide (p = 5000) then w
      else with_bound_ports (bound_ports w ∖ {[p]}) w
  end.

Definition run_events (es : list event) : World := foldl step init_world es.

(** The replies given to requests for one path, oldest first. *)
Definition replies_to (p : string) (l : list (string * reply)) : list reply :=
  (filter (λ x, x.1 = p) l).*2.

(** How many requests of a trace ask for one path. *)
Definition hits (p : string) (incoming : list request) : nat :=
  length (filter (λ r, path r = p) incoming).

(** A handler that does what the text above the cell describes: it calls
    [stop_server] before it answers.  It is not part of the cell; it shows
    that the serving loop ends once a handler asks for it. *)
Definition hello_then_stop : M string :=
  stop_server ;;;
  ret "Hello".

Definition werkzeug_environ : environ :=
  {[ "werkzeug.server.shutdown" := PyShutdownServer ]}.

(** The one-route server the text describes. *)
Definition stopping_server : gmap string (M string) :=
  {[ "/" := hello_then_stop ]}.

(** A request for [p] as werkzeug's development server hands it over. *)
Definition GET (p : string) (d : date) : request := Request p werkzeug_environ d.

(** The shape YYYY-MM-DD of an ISO 8601 calendar date. *)
Definition is_digit (c : Ascii.ascii) : bool :=
  bool_decide (48 ≤ Z.of_nat (Ascii.nat_of_ascii c) ≤ 57).

Fixpoint digits_n (n : nat) (s : string) : bool :=
  match n, s with
  | O, EmptyString => true
  | S k, String c rest => is_digit c && digits_n k rest
  | _, _ => false
  end.

Definition iso_shaped (s : string) : bool :=
  digits_n 4 (String.substring 0 4 s)
  && bool_decide (String.substring 4 1 s = "-")
  && digits_n 2 (String.substring 5 2 s)
  && bool_decide (String.substring 7 1 s = "-")
  && digits_n 2 (String.substring 8 2 s)
  && bool_decide (String.length s = 10%nat).

(** The reply the cell gives to visitor number [k] of /testNYU. *)
Definition visitor_reply (k : Z) : reply :=
  Reply (Response 200 ("Hello! You are visitor #" +:+ str_int k)).

(** The number written by a string of decimal digits, and the three fields
    read back from a date in ISO form. *)
Definition digit_value (c : Ascii.ascii) : Z := Z.of_nat (Ascii.nat_of_ascii c) - 48.

Fixpoint digits_value_from (acc : Z) (s : string) : Z :=
  match s with
  | EmptyString => acc
  | String c rest => digits_value_from (10 * acc + digit_value c) rest
  end.

Definition digits_value (s : string) : Z := digits_value_from 0 s.

Definition iso_fields (s : string) : date :=
  Date (digits_value (String.substring 0 4 s))
       (digits_value (String.substring 5 2 s))
       (digits_value (String.substring 8 2 s)).

(** * The walk-forward forecast of 03-Pandas/Handling_Time_Series_with_Pandas

    The cell that splits the series and the cell that forecasts the test part
    one point at a time.  The temperatures are floats and the forecast is the
    ARIMA fit of statsmodels: both are left open, as a type [V] of values and
    a function [fit_forecast] that either gives the next value or fails with
    an exception of some type [E]. *)

Section WalkForward.

Context {V E : Type}.

(** [ARIMA(X_train, order=(5,0,0)).fit().forecast()[0][0]] *)
Variable fit_forecast : list V → V + E.

(** The variables the loop changes: the two lists it appends to, and the
    lines it prints.  A printed line is kept as the three values it is
    formatted from. *)
Record wf_state := WfState {
  X_train : list V;
  predictions : list V;
  printed : list (nat * V * V)
}.

(** The cell of the split, with [n = int(melbourne_temp.size * 0.7)] given:
    [X_train] is the slice [:n] and [X_test] the slice [n:] of the values. *)
Definition split_cell (n : nat) (values : list V) : list V * list V :=
  (take n values, drop n values).

(** The body of [for i, val in enumerate(X_test)], from index [i] on.  An
    exception of the fit leaves the loop with the lists as they are then. *)
Fixpoint walk_forward (i : nat) (X_test : list V) (st : wf_state) : wf_state * option E :=
  match X_test with
  | [] => (st, None)
  | val :: rest =>
      match fit_forecast (X_train st) with
      | inr e => (st, Some e)
      | inl y_pred =>
          let predictions' := predictions st ++ [y_pred] in
          let X_train' := X_train st ++ [val] in
          let printed' :=
            if bool_decide (i < 10)%nat then printed st ++ [(i, y_pred, val)]
            else printed st in
          walk_forward (S i) rest (WfState X_train' predictions' printed')
      end
  end.

(** The forecasting cell: [predictions = []], then the loop. *)
Definition forecast_cell (X_train0 X_test : list V) : wf_state * option E :=
  walk_forward 0 X_test (WfState X_train0 [] []).

End WalkForward.

Arguments wf_state : clear implicits.
Arguments WfState {V} _ _ _.

(** A stand-in for the fit, on integers: it needs three values to work and
    then repeats the last one. *)
Definition persistence_forecast (xs : list Z) : Z + string :=
  if bool_decide (length xs < 3)%nat then inr "not enough observations"
  else inl (default 0 (last xs)).

(** * The Monte Carlo cell of 03-Pandas/Z-Pandas_and_Time_Series_Modeling

    The cell that collects 1000 simulated random walks as the columns
    Run0, Run1, ... of a data frame.  The walks are random arrays of
    [ts_length] floats and the data frame is pandas': both are left open.
    [draw x] stands for the walk computed in round [x]; the data frame is any
    type with an insertion that can fail and a way to read its columns. *)

Section MonteCarlo.

Context {C DF Err : Type}.

(** [np.cumprod(np.random.lognormal(...))] of round [x] *)
Variable draw : nat → C.

(** [df.insert(loc, column, value)] *)
Variable df_insert : DF → nat → string → C → DF + Err.

(** The body of [for x in range(...)] over the indices [xs]; an exception of
    [df.insert] leaves the loop. *)
Fixpoint insert_runs (xs : list nat) (df : DF) : DF + Err :=
  match xs with
  | [] => inl df
  | x :: rest =>
      let random_walk_ts := draw x in
      match df_insert df x ("Run" +:+ str_int (Z.of_nat x)) random_walk_ts with
      | inl df' => insert_runs rest df'
      | inr e => inr e
      end
  end.

(** The column round [x] adds: its name and its values. *)
Definition run_column (x : nat) : string * C :=
  ("Run" +:+ str_int (Z.of_nat x), draw x).

(** [df = pd.DataFrame()] followed by [for x in range(1000)]. *)
Definition monte_carlo_cell (df_empty : DF) : DF + Err :=
  insert_runs (seq 0 1000) df_empty.

End MonteCarlo.

(** A data frame as the list of its named columns, with the insertion pandas
    documents: the position must not lie beyond the last column and the name
    must be new. *)
Definition columns_insert {C} (df : list (string * C)) (loc : nat) (name : string) (col : C)
    : list (string * C) + string :=
  if bool_decide (loc ≤ length df)%nat then
    if bool_decide (name ∈ df.*1) then inr "already exists"
    else inl (take loc df ++ (name, col) :: drop loc df)
  else inr "index out of bounds".

(** * The Spotify cells of 04-WebAPIs

    The notebook that asks Spotify for an access token and searches for a
    track.  The answers of the two HTTP calls are the inputs here: whatever
    [requests.post(...).json()] and [requests.get(...).json()] return. *)

(** A decoded JSON document.  A float is kept as its bit pattern: the
    cells never compute with one. *)
Local Unset Elimination Schemes.
Inductive json :=
  | JNull
  | JBool (b : bool)
  | JInt (n : Z)
  | JFloat (bits : Z)
  | JStr (s : string)
  | JList (items : list json)
  | JDict (fields : gmap string json).
Local Set Elimination Schemes.

(** The exceptions of subscripting and of adding to a string. *)
Inductive lookup_exn :=
  | KeyError (key : string)
  | KeyErrorInt (key : Z)
  | IndexError
  | JTypeError.

(** [v[k]] for a string [k]: only a dict can be subscripted by a string. *)
Definition getitem_str (v : json) (k : string) : json + lookup_exn :=
  match v with
  | JDict fields =>
      match fields !! k with
      | Some x => inl x
      | None => inr (KeyError k)
      end
  | _ => inr JTypeError
  end.

(** Python's index into a sequence of [len] elements: a negative index
    counts from the end. *)
Definition sequence_index (len : nat) (i : Z) : option nat :=
  if bool_decide (0 ≤ i < Z.of_nat len) then Some (Z.to_nat i)
  else if bool_decide (- Z.of_nat len ≤ i < 0) then Some (Z.to_nat (Z.of_nat len + i))
  else None.

(** [v[i]] for an integer [i]: an element of a list, a character of a
    string; the keys of a JSON object are strings, so an integer is never
    among them. *)
Definition getitem_int (v : json) (i : Z) : json + lookup_exn :=
  match v with
  | JList items =>
      match sequence_index (length items) i ≫= (items !!.) with
      | Some x => inl x
      | None => inr IndexError
      end
  | JStr s =>
      match sequence_index (String.length s) i ≫= (λ k, String.get k s) with
      | Some c => inl (JStr (String c EmptyString))
      | None => inr IndexError
      end
  | JDict _ => inr (KeyErrorInt i)
  | _ => inr JTypeError
  end.

(** [auth_header = {'Authorization': 'Bearer ' + auth_data['access_token']}] *)
Definition auth_header (auth_data : json) : gmap string string + lookup_exn :=
  match getitem_str auth_data "access_token" with
  | inl (JStr token) => inl {[ "Authorization" := "Bearer " +:+ token ]}
  | inl _ => inr JTypeError
  | inr e => inr e
  end.

(** [first_returned_track = response['tracks']['items'][0]] *)
Definition first_returned_track (response : json) : json + lookup_exn :=
  match getitem_str response "tracks" with
  | inl tracks =>
      match getitem_str tracks "items" with
      | inl items => getitem_int items 0
      | inr e => inr e
      end
  | inr e => inr e
  end.

(** * Properties *)

(** ** The monad *)

Lemma bind_ret_l {A B} (a : A) (k : A → M B) ctx w :
  bind (ret a) k ctx w = k a ctx w.
Proof. reflexivity. Qed.

Lemma bind_modify {B} (f : World → World) (k : () → M B) ctx w :
  bind (modify f) k ctx w = k () ctx (f w).
Proof. reflexivity. Qed.

Lemma bind_get {A B} (f : World → A) (k : A → M B) ctx w :
  bind (get f) k ctx w = k (f w) ctx w.
Proof. reflexivity. Qed.

Lemma bind_assoc {A B C} (m : M A) (k : A → M B) (h : B → M C) ctx w :
  bind (bind m k) h ctx w = bind m (λ a, bind (k a) h) ctx w.
Proof. unfold bind. destruct (m ctx w) as [[a | e |] w']; reflexivity. Qed.

(** ** The URL map *)

Lemma webserver_lookup (p : string) :
  webserver !! p =
    if decide (p = "/") then Some hello_world
    else if decide (p = "/testNYU") then Some hello_nyu
    else None.
Proof.
  unfold webserver.
  repeat case_decide; subst; simplify_map_eq; done.
Qed.

(** ** The handlers on their own *)

Lemma hello_world_run ctx w :
  hello_world ctx w = (Ret ("Hello Panos, it is now " +:+ isoformat (clock w)), w).
Proof. reflexivity. Qed.

Lemma hello_nyu_run ctx w :
  hello_nyu ctx w =
    (Ret ("Hello! You are visitor #" +:+ str_int (visitor_counter w + 1)),
     with_visitor_counter (visitor_counter w + 1) w).
Proof. reflexivity. Qed.

(** ** One turn of the loop with the handlers of the cell *)

(** The world after the cell's server has answered [r], as long as no
    shutdown was asked for. *)
Lemma handle_request_webserver r ctx w :
  shutdown_signal w = false →
  handle_request webserver r ctx w =
    (Ret (),
     let w1 := with_clock (arrival r) w in
     if decide (path r = "/") then
       with_wire (wire w ++ [(path r, Reply (Response 200
         ("Hello Panos, it is now " +:+ isoformat (arrival r))))]) w1
     else if decide (path r = "/testNYU") then
       with_wire (wire w ++ [(path r, visitor_reply (visitor_counter w + 1))])
         (with_visitor_counter (visitor_counter w + 1) w1)
     else
       with_wire (wire w ++ [(path r, Reply (Response 404 "Not Found"))]) w1).
Proof.
  intros Hsig. destruct w as [n up sig ports binds out d]. simpl in Hsig. subst sig.
  unfold handle_request. rewrite bind_modify.
  unfold bind at 1. unfold dispatch. rewrite webserver_lookup.
  repeat case_decide; reflexivity.
Qed.

(** The same, field by field. *)
Lemma turn_fields r ctx w :
  shutdown_signal w = false →
  ∃ w2 resp,
    handle_request webserver r ctx w = (Ret (), w2)
    ∧ listening w2 = listening w
    ∧ shutdown_signal w2 = false
    ∧ bound_ports w2 = bound_ports w
    ∧ bind_log w2 = bind_log w
    ∧ visitor_counter w2 =
        visitor_counter w + (if decide (path r = "/testNYU") then 1 else 0)
    ∧ wire w2 = wire w ++ [(path r, Reply resp)]
    ∧ (path r = "/testNYU" → Reply resp = visitor_reply (visitor_counter w + 1)).
Proof.
  intros Hsig. rewrite (handle_request_webserver r ctx w Hsig). cbv zeta.
  destruct (decide (path r = "/")) as [Hroot | Hroot].
  - eexists _, _. split; [reflexivity |]. simpl.
    rewrite decide_False by (rewrite Hroot; discriminate).
    repeat split; try done; try lia. rewrite Hroot. discriminate.
  - destruct (decide (path r = "/testNYU")) as [Hnyu | Hnyu].
    + eexists _, _. split; [reflexivity |]. simpl. repeat split; done.
    + eexists _, _. split; [reflexivity |]. simpl. repeat split; try done; lia.
Qed.

(** ** The loop with the handlers of the cell: it never ends *)

Lemma serve_forever_webserver incoming : ∀ ctx w,
  listening w = true →
  shutdown_signal w = false →
  ∃ w' out,
    serve_forever webserver incoming ctx w = (Blocked, w')
    ∧ listening w' = true
    ∧ shutdown_signal w' = false
    ∧ bound_ports w' = bound_ports w
    ∧ bind_log w' = bind_log w
    ∧ visitor_counter w' = visitor_counter w + Z.of_nat (hits "/testNYU" incoming)
    ∧ wire w' = wire w ++ out
    ∧ out.*1 = path <$> incoming
    ∧ Forall (λ x, x.2 ≠ ConnectionRefused) out
    ∧ replies_to "/testNYU" out =
        visitor_reply <$> seqZ (visitor_counter w + 1) (Z.of_nat (hits "/testNYU" incoming)).
Proof.
  induction incoming as [| r rest IH]; intros ctx w Hup Hsig.
  - exists w, []. simpl. rewrite bind_get, Hup. unfold block.
    rewrite app_nil_r. repeat split; try done. unfold hits; simpl; lia.
  - simpl. rewrite bind_get, Hup.
    destruct (turn_fields r ctx w Hsig)
      as (w2 & resp & Hrun & Hup2 & Hsig2 & Hports & Hbinds & Hcount & Hwire & Hresp).
    unfold bind at 1. rewrite Hrun.
    rewrite Hup in Hup2.
    destruct (IH ctx w2 Hup2 Hsig2)
      as (w' & out & Hrun' & Hup' & Hsig' & Hports' & Hbinds' & Hcount' & Hwire' & Hpaths & Hall & Hnyu).
    exists w', ((path r, Reply resp) :: out).
    split; [exact Hrun' |].
    split; [exact Hup' |].
    split; [exact Hsig' |].
    split; [congruence |].
    split; [congruence |].
    unfold hits, replies_to in *. rewrite !filter_cons. simpl.
    destruct (decide (path r = "/testNYU")) as [Hp | Hp].
    + split; [rewrite Hcount', Hcount; simpl; lia |].
      split; [rewrite Hwire', Hwire, <- app_assoc; reflexivity |].
      split; [simpl; f_equal; exact Hpaths |].
      split; [constructor; [discriminate | exact Hall] |].
      rewrite fmap_cons, Hnyu, Hcount. cbn [snd]. rewrite (Hresp Hp).
      rewrite (seqZ_cons (visitor_counter w + 1)) by (simpl; lia).
      rewrite fmap_cons. do 3 f_equal; simpl; lia.
    + split; [rewrite Hcount', Hcount; lia |].
      split; [rewrite Hwire', Hwire, <- app_assoc; reflexivity |].
      split; [simpl; f_equal; exact Hpaths |].
      split; [constructor; [discriminate | exact Hall] |].
      rewrite Hnyu, Hcount. do 2 f_equal. lia.
Qed.

(** ** [start_server] *)

(** The world at the moment the listen call has bound the port. *)
Lemma start_server_unfold incoming ctx w :
  start_server incoming ctx w =
    let w0 := with_bind_log (bind_log w ++ [5000]) (with_visitor_counter 0 w) in
    if bool_decide (5000 ∈ bound_ports w) then (Raise (OSError 98), w0)
    else
      bind (serve_until_shutdown webserver 5000 incoming) (λ _, ret ()) ctx
        (with_listening true (with_shutdown_signal false
          (with_bound_ports ({[5000]} ∪ bound_ports w) w0))).
Proof.
  unfold start_server, run. rewrite bind_modify, bind_assoc, bind_modify, bind_assoc, bind_get.
  cbn [bound_ports with_bind_log with_visitor_counter]. cbv zeta.
  case_bool_decide; [reflexivity |].
  rewrite !bind_assoc, !bind_modify. reflexivity.
Qed.

Lemma start_server_busy incoming ctx w :
  5000 ∈ bound_ports w →
  start_server incoming ctx w =
    (Raise (OSError 98), with_bind_log (bind_log w ++ [5000]) (with_visitor_counter 0 w)).
Proof.
  intros Hbusy. rewrite start_server_unfold. cbv zeta.
  rewrite bool_decide_eq_true_2 by exact Hbusy. reflexivity.
Qed.

Lemma start_server_free incoming ctx w :
  5000 ∉ bound_ports w →
  ∃ w' out,
    start_server incoming ctx w = (Blocked, w')
    ∧ listening w' = true
    ∧ shutdown_signal w' = false
    ∧ bound_ports w' = {[5000]} ∪ bound_ports w
    ∧ bind_log w' = bind_log w ++ [5000]
    ∧ visitor_counter w' = Z.of_nat (hits "/testNYU" incoming)
    ∧ wire w' = wire w ++ out
    ∧ out.*1 = path <$> incoming
    ∧ Forall (λ x, x.2 ≠ ConnectionRefused) out
    ∧ replies_to "/testNYU" out =
        visitor_reply <$> seqZ 1 (Z.of_nat (hits "/testNYU" incoming)).
Proof.
  intros Hfree. rewrite start_server_unfold. cbv zeta.
  rewrite bool_decide_eq_false_2 by exact Hfree.
  set (w1 := with_listening true _).
  destruct (serve_forever_webserver incoming ctx w1 eq_refl eq_refl)
    as (w' & out & Hrun & Hup & Hsig & Hports & Hbinds & Hcount & Hwire & Hrest).
  exists w', out. unfold serve_until_shutdown.
  rewrite bind_assoc. unfold bind at 1. rewrite Hrun.
  split; [reflexivity |].
  split; [exact Hup |].
  split; [exact Hsig |].
  split; [exact Hports |].
  split; [exact Hbinds |].
  split; [rewrite Hcount; simpl; lia |].
  split; [exact Hwire | exact Hrest].
Qed.

(** ** Dates print in the ISO shape *)

Lemma fmt_0d_digits (width : nat) (bound : Z) :
  forallb (λ n, digits_n width (fmt_0d width n)) (seqZ 0 bound) = true →
  ∀ n, 0 ≤ n < bound → digits_n width (fmt_0d width n) = true.
Proof.
  intros Hall n Hn. rewrite forallb_forall in Hall.
  apply Hall, list_elem_of_In, elem_of_seqZ. lia.
Qed.

Lemma fmt_0d_4_digits n : 0 ≤ n < 10000 → digits_n 4 (fmt_0d 4 n) = true.
Proof. apply fmt_0d_digits. vm_compute. reflexivity. Qed.

Lemma fmt_0d_2_digits n : 0 ≤ n < 100 → digits_n 2 (fmt_0d 2 n) = true.
Proof. apply fmt_0d_digits. vm_compute. reflexivity. Qed.

Lemma iso_shaped_join (a b c : string) :
  digits_n 4 a = true → digits_n 2 b = true → digits_n 2 c = true →
  iso_shaped (a +:+ "-" +:+ b +:+ "-" +:+ c) = true.
Proof.
  intros Ha Hb Hc.
  destruct a as [| a1 [| a2 [| a3 [| a4 [| ? ?]]]]]; simpl in Ha;
    try discriminate; try (rewrite ?andb_false_r in Ha; discriminate).
  destruct b as [| b1 [| b2 [| ? ?]]]; simpl in Hb;
    try discriminate; try (rewrite ?andb_false_r in Hb; discriminate).
  destruct c as [| c1 [| c2 [| ? ?]]]; simpl in Hc;
    try discriminate; try (rewrite ?andb_false_r in Hc; discriminate).
  unfold iso_shaped. simpl. rewrite Ha, Hb, Hc. reflexivity.
Qed.

Lemma days_in_month_le y m : days_in_month y m ≤ 31.
Proof. unfold days_in_month. repeat case_bool_decide; lia. Qed.

Lemma isoformat_shaped d : valid_date d = true → iso_shaped (isoformat d) = true.
Proof.
  unfold valid_date. rewrite !andb_true_iff, !bool_decide_eq_true.
  intros [[Hy Hm] Hd]. pose proof (days_in_month_le (year d) (month d)).
  apply iso_shaped_join.
  - apply fmt_0d_4_digits. lia.
  - apply fmt_0d_2_digits. lia.
  - apply fmt_0d_2_digits. lia.
Qed.

(** ** The event machine *)

(** While the loop is blocked, one arriving client costs it one turn. *)
Lemma step_arrive_running r w :
  listening w = true →
  shutdown_signal w = false →
  step w (Arrive r) = world_after (handle_request webserver r None w).
Proof.
  intros Hup Hsig. unfold step. rewrite Hup.
  unfold serve_until_shutdown. simpl serve_forever.
  rewrite bind_assoc, bind_get, Hup, bind_assoc.
  destruct (turn_fields r None w Hsig) as (w2 & resp & Hrun & Hup2 & _).
  unfold bind at 1. rewrite Hrun. cbn [serve_forever].
  rewrite bind_assoc, bind_get, Hup2, Hup. reflexivity.
Qed.

(** A run of [start_server] over a trace of requests is the event
    [CallStart] followed by one [Arrive] per request. *)
Lemma serve_forever_as_events incoming : ∀ ctx w,
  listening w = true →
  shutdown_signal w = false →
  world_after (serve_forever webserver incoming ctx w) = foldl step w (Arrive <$> incoming).
Proof.
  induction incoming as [| r rest IH]; intros ctx w Hup Hsig.
  - simpl. rewrite bind_get, Hup. reflexivity.
  - rewrite fmap_cons. cbn [foldl]. rewrite (step_arrive_running r w Hup Hsig).
    simpl serve_forever. rewrite bind_get, Hup.
    destruct (turn_fields r ctx w Hsig) as (w2 & resp & Hrun & Hup2 & Hsig2 & _).
    unfold bind at 1. rewrite Hrun.
    rewrite (handle_request_webserver r ctx w Hsig) in Hrun.
    rewrite (handle_request_webserver r None w Hsig).
    injection Hrun as Hw2. unfold world_after at 2. cbn [snd]. rewrite Hw2.
    apply IH; congruence.
Qed.

Lemma start_server_as_events incoming ctx w :
  5000 ∉ bound_ports w →
  world_after (start_server incoming ctx w)
  = foldl step (step w CallStart) (Arrive <$> incoming).
Proof.
  intros Hfree. unfold step. rewrite !start_server_unfold. cbv zeta.
  rewrite bool_decide_eq_false_2 by exact Hfree.
  set (w1 := with_listening true _).
  assert (Hblocked : ∀ l c, bind (serve_until_shutdown webserver 5000 l) (λ _, ret ()) c w1
                         = serve_forever webserver l c w1).
  { intros l c. unfold serve_until_shutdown. rewrite bind_assoc. unfold bind at 1.
    destruct (serve_forever_webserver l c w1 eq_refl eq_refl) as (w' & out & Hrun & _).
    rewrite Hrun. reflexivity. }
  rewrite !Hblocked.
  rewrite (serve_forever_as_events incoming ctx w1 eq_refl eq_refl).
  reflexivity.
Qed.

(** What one event does to the two flags of the server. *)
Lemma step_flags w e :
  shutdown_signal w = false →
  shutdown_signal (step w e) = false
  ∧ listening (step w e) =
      match e with
      | CallStart => listening w || bool_decide (5000 ∉ bound_ports w)
      | _ => listening w
      end.
Proof.
  intros Hsig. destruct e as [| r | p | p].
  - unfold step. destruct (decide (5000 ∈ bound_ports w)) as [Hbusy | Hfree].
    + rewrite (start_server_busy [] None w Hbusy). unfold world_after. simpl.
      rewrite bool_decide_eq_false_2 by tauto. rewrite orb_false_r. done.
    + destruct (start_server_free [] None w Hfree) as (w' & out & Hrun & Hup & Hsig' & _).
      rewrite Hrun. unfold world_after. simpl.
      rewrite bool_decide_eq_true_2 by exact Hfree. rewrite orb_true_r. done.
  - destruct (listening w) eqn:Hup.
    + rewrite (step_arrive_running r w Hup Hsig).
      destruct (turn_fields r None w Hsig) as (w2 & resp & Hrun & Hup2 & Hsig2 & _).
      rewrite Hrun. unfold world_after. simpl. split; congruence.
    + unfold step. rewrite Hup. simpl. rewrite bind_get, Hup. simpl. done.
  - simpl. done.
  - unfold step. destruct (listening w && bool_decide (p = 5000)); simpl; done.
Qed.

Lemma run_events_snoc es e : run_events (es ++ [e]) = step (run_events es) e.
Proof. unfold run_events. apply foldl_snoc. Qed.

(** No reachable world has a shutdown pending. *)
Lemma run_events_no_signal es : shutdown_signal (run_events es) = false.
Proof.
  induction es as [| e es IH] using rev_ind; [reflexivity |].
  rewrite run_events_snoc. apply step_flags, IH.
Qed.

(** ** The loop does end when a handler asks for it *)

(** With a handler that calls [stop_server], the listen call returns after
    the first response and the next client is refused. *)
Lemma stopping_server_stops d :
  run stopping_server "0.0.0.0" 5000 [GET "/" d; GET "/" d] None init_world
  = (Ret (),
     mkWorld 0 false true ∅ [5000]
       [("/", Reply (Response 200 "Hello")); ("/", ConnectionRefused)] d).
Proof. vm_compute. reflexivity. Qed.

(** * The claims *)

(** C1, which the code does not meet.  The claim says that a request to /testNYU makes
    the handler trigger the shutdown, so that a later request cannot connect.
    In the cell the call of [stop_server] in [hello_nyu] is commented out:
    the handler never touches the flags of the server, and a second request
    after a first one to /testNYU is served as visitor 2 while [start_server]
    is still blocked in the loop. *)
Theorem hello_nyu_leaves_server_running :
  (∀ ctx w, listening (world_after (hello_nyu ctx w)) = listening w
            ∧ shutdown_signal (world_after (hello_nyu ctx w)) = shutdown_signal w)
  ∧ ∀ d,
      let r := cell [GET "/testNYU" d; GET "/testNYU" d] in
      ending r = Blocked
      ∧ server_state (world_after r) = Running
      ∧ wire (world_after r) =
          [("/testNYU", visitor_reply 1); ("/testNYU", visitor_reply 2)].
Proof.
  split.
  - intros ctx w. rewrite hello_nyu_run. done.
  - intros d. vm_compute. done.
Qed.

(** C2.  Every invocation of the /testNYU handler adds exactly one to the
    visitor counter, changes nothing else, and returns the text
    Hello! You are visitor # followed by the decimal form of the new value of
    the counter; served over HTTP this text is the body of a 200 response. *)
Theorem hello_nyu_increments_and_reports ctx w :
  hello_nyu ctx w =
    (Ret ("Hello! You are visitor #" +:+ str_int (visitor_counter w + 1)),
     with_visitor_counter (visitor_counter w + 1) w)
  ∧ visitor_counter (world_after (hello_nyu ctx w)) = visitor_counter w + 1
  ∧ ∀ env d,
      dispatch webserver (Request "/testNYU" env d) ctx w =
        (Ret (Response 200
           ("Hello! You are visitor #" +:+ str_int (visitor_counter w + 1))),
         with_visitor_counter (visitor_counter w + 1) w).
Proof.
  split; [apply hello_nyu_run |].
  split; [rewrite hello_nyu_run; reflexivity |].
  intros env d. unfold dispatch. rewrite webserver_lookup. reflexivity.
Qed.

(** C3.  Within one run of the server (one call of [start_server] that
    could bind its port), the replies to the successive requests for
    /testNYU carry the visitor numbers 1, 2, 3, ... in this order, whatever
    other requests come in between. *)
Theorem visitor_numbers_count_from_one incoming ctx w :
  5000 ∉ bound_ports w →
  ∃ out,
    wire (world_after (start_server incoming ctx w)) = wire w ++ out
    ∧ out.*1 = path <$> incoming
    ∧ replies_to "/testNYU" out =
        visitor_reply <$> seqZ 1 (Z.of_nat (hits "/testNYU" incoming))
    ∧ ∀ i : nat,
        (i < hits "/testNYU" incoming)%nat →
        replies_to "/testNYU" out !! i = Some (visitor_reply (1 + Z.of_nat i)).
Proof.
  intros Hfree.
  destruct (start_server_free incoming ctx w Hfree)
    as (w' & out & Hrun & _ & _ & _ & _ & _ & Hwire & Hpaths & _ & Hnyu).
  exists out. rewrite Hrun.
  split; [exact Hwire |]. split; [exact Hpaths |]. split; [exact Hnyu |].
  intros i Hi. rewrite Hnyu, list_lookup_fmap, lookup_seqZ_lt by lia. reflexivity.
Qed.

Lemma visitor_numbers_count_from_one_witness :
  (5000 ∉ bound_ports init_world)
  ∧ ∃ out,
      wire (world_after (start_server
        [GET "/testNYU" epoch; GET "/" epoch; GET "/testNYU" epoch; GET "/testNYU" epoch]
        None init_world)) = wire init_world ++ out
      ∧ out.*1 = path <$>
          [GET "/testNYU" epoch; GET "/" epoch; GET "/testNYU" epoch; GET "/testNYU" epoch]
      ∧ replies_to "/testNYU" out =
          visitor_reply <$> seqZ 1 (Z.of_nat (hits "/testNYU"
            [GET "/testNYU" epoch; GET "/" epoch; GET "/testNYU" epoch; GET "/testNYU" epoch]))
      ∧ ∀ i : nat,
          (i < hits "/testNYU"
            [GET "/testNYU" epoch; GET "/" epoch; GET "/testNYU" epoch; GET "/testNYU" epoch])%nat →
          replies_to "/testNYU" out !! i = Some (visitor_reply (1 + Z.of_nat i)).
Proof.
  split; [apply not_elem_of_empty |].
  apply (visitor_numbers_count_from_one _ None init_world). apply not_elem_of_empty.
Defined.

(** C4.  Every invocation of the handler of / returns the text
    Hello Panos, it is now followed by the current date in the ISO form
    YYYY-MM-DD, and leaves the world as it was; when the running server
    answers a request for / it sends this text as a 200 response and is
    still running afterwards. *)
Theorem hello_world_greets_and_keeps_serving r ctx w :
  path r = "/" →
  server_state w = Running →
  valid_date (arrival r) = true →
  (∀ ctx0 w0,
     hello_world ctx0 w0 =
       (Ret ("Hello Panos, it is now " +:+ isoformat (clock w0)), w0))
  ∧ iso_shaped (isoformat (arrival r)) = true
  ∧ ∃ w',
      handle_request webserver r ctx w = (Ret (), w')
      ∧ wire w' = wire w ++
          [(path r, Reply (Response 200
             ("Hello Panos, it is now " +:+ isoformat (arrival r))))]
      ∧ server_state w' = Running.
Proof.
  intros Hpath Hstate Hdate.
  split; [intros; apply hello_world_run |].
  split; [apply isoformat_shaped, Hdate |].
  unfold server_state in Hstate.
  destruct (listening w) eqn:Hup; [| discriminate].
  destruct (shutdown_signal w) eqn:Hsig; [discriminate |].
  rewrite (handle_request_webserver r ctx w Hsig). cbv zeta.
  rewrite decide_True by exact Hpath.
  eexists. split; [reflexivity |]. split; [reflexivity |].
  unfold server_state. simpl. rewrite Hup, Hsig. reflexivity.
Qed.

Lemma hello_world_greets_and_keeps_serving_witness :
  (∀ ctx0 w0,
     hello_world ctx0 w0 =
       (Ret ("Hello Panos, it is now " +:+ isoformat (clock w0)), w0))
  ∧ iso_shaped (isoformat (Date 2017 3 7)) = true
  ∧ ∃ w',
      handle_request webserver (GET "/" (Date 2017 3 7)) None
        (with_listening true init_world) = (Ret (), w')
      ∧ wire w' = wire (with_listening true init_world) ++
          [("/", Reply (Response 200
             ("Hello Panos, it is now " +:+ isoformat (Date 2017 3 7))))]
      ∧ server_state w' = Running.
Proof.
  apply (hello_world_greets_and_keeps_serving
           (GET "/" (Date 2017 3 7)) None (with_listening true init_world));
    reflexivity.
Defined.

(** C5.  Every call of [start_server] sets the visitor counter to 0 before
    the loop serves anything, whatever value an earlier run left in it: with
    no request yet the counter is 0, and after any requests it is the number
    of requests for /testNYU of this run alone. *)
Theorem start_server_resets_counter ctx w :
  visitor_counter (world_after (start_server [] ctx w)) = 0
  ∧ ∀ incoming,
      visitor_counter (world_after (start_server incoming ctx w)) =
        if bool_decide (5000 ∈ bound_ports w) then 0
        else Z.of_nat (hits "/testNYU" incoming).
Proof.
  assert (Hall : ∀ incoming,
    visitor_counter (world_after (start_server incoming ctx w)) =
      if bool_decide (5000 ∈ bound_ports w) then 0
      else Z.of_nat (hits "/testNYU" incoming)).
  { intros incoming. case_bool_decide as Hport.
    - rewrite (start_server_busy incoming ctx w Hport). reflexivity.
    - destruct (start_server_free incoming ctx w Hport)
        as (w' & out & Hrun & _ & _ & _ & _ & Hcount & _).
      rewrite Hrun. exact Hcount. }
  split; [| exact Hall].
  rewrite (Hall []). case_bool_decide; reflexivity.
Qed.

(** C6.  [start_server] does not return to its caller: no handler of the
    cell triggers the shutdown, so for every trace of requests, the empty
    one included, the call is still blocked in the serving loop with the
    server running; the only other way out is the bind error raised before
    the loop is entered. *)
Theorem start_server_blocks incoming ctx w :
  ending (start_server incoming ctx w) =
    (if bool_decide (5000 ∈ bound_ports w) then Raise (OSError 98) else Blocked)
  ∧ ending (start_server incoming ctx w) ≠ Ret ()
  ∧ server_state (world_after (start_server incoming ctx w)) =
      (if bool_decide (5000 ∈ bound_ports w) then server_state w else Running)
  ∧ ending (start_server [] ctx (with_bound_ports (bound_ports w ∖ {[5000]}) w)) = Blocked.
Proof.
  assert (Hend : ∀ l w0, ending (start_server l ctx w0) =
    if bool_decide (5000 ∈ bound_ports w0) then Raise (OSError 98) else Blocked).
  { intros l w0. case_bool_decide as Hport.
    - rewrite (start_server_busy l ctx w0 Hport). reflexivity.
    - destruct (start_server_free l ctx w0 Hport) as (w' & out & Hrun & _).
      rewrite Hrun. reflexivity. }
  split; [apply Hend |].
  split; [rewrite Hend; case_bool_decide; discriminate |].
  split.
  - case_bool_decide as Hport.
    + rewrite (start_server_busy incoming ctx w Hport). reflexivity.
    + destruct (start_server_free incoming ctx w Hport)
        as (w' & out & Hrun & Hup & Hsig & _).
      rewrite Hrun. unfold server_state, world_after. simpl. rewrite Hup, Hsig. reflexivity.
  - rewrite Hend. rewrite bool_decide_eq_false_2; [reflexivity |].
    simpl. intros [_ Hout]%elem_of_difference. apply Hout, elem_of_singleton. reflexivity.
Qed.

(** C7.  The server starts out stopped; every reachable world is stopped or
    running, never in between; running is reachable; the only event that
    takes a stopped server to running is a call of [start_server]; and since
    no handler of the cell triggers the shutdown, no event takes a running
    server back to stopped. *)
Theorem server_state_machine :
  server_state init_world = Stopped
  ∧ (∀ es, server_state (run_events es) = Stopped
           ∨ server_state (run_events es) = Running)
  ∧ (∃ es, server_state (run_events es) = Running)
  ∧ (∀ es e, server_state (run_events es) = Stopped →
             server_state (run_events (es ++ [e])) = Running →
             e = CallStart)
  ∧ (∀ es e, server_state (run_events es) = Running →
             server_state (run_events (es ++ [e])) = Running).
Proof.
  assert (Hstate : ∀ es, server_state (run_events es) =
                         if listening (run_events es) then Running else Stopped).
  { intros es. unfold server_state. rewrite run_events_no_signal. reflexivity. }
  split; [reflexivity |].
  split; [intros es; rewrite Hstate; destruct (listening _); auto |].
  split; [exists [CallStart]; vm_compute; reflexivity |].
  split.
  - intros es e. rewrite !Hstate, run_events_snoc.
    destruct (step_flags (run_events es) e (run_events_no_signal es)) as [_ Hup].
    rewrite Hup. destruct e; [reflexivity | | |];
      destruct (listening (run_events es)); discriminate.
  - intros es e. rewrite !Hstate, run_events_snoc.
    destruct (step_flags (run_events es) e (run_events_no_signal es)) as [_ Hup].
    rewrite Hup. destruct (listening (run_events es)); [| discriminate].
    destruct e; reflexivity.
Qed.

Lemma server_state_machine_witness :
  server_state (run_events [OsBind 8080]) = Stopped
  ∧ server_state (run_events ([OsBind 8080] ++ [CallStart])) = Running
  ∧ server_state
      (run_events ([OsBind 8080; CallStart] ++ [Arrive (GET "/testNYU" epoch)])) = Running.
Proof.
  destruct server_state_machine as (_ & _ & _ & _ & Hstays).
  split; [reflexivity |]. split; [reflexivity |].
  apply (Hstays [OsBind 8080; CallStart] (Arrive (GET "/testNYU" epoch))).
  reflexivity.
Defined.

(** C8.  When port 5000 is already in use, [start_server] ends with the
    bind error (errno 98, address already in use) raised to its caller; the
    bind was attempted exactly once, the server does not listen more than
    before and no request is answered. *)
Theorem start_server_port_in_use incoming ctx w :
  5000 ∈ bound_ports w →
  ending (start_server incoming ctx w) = Raise (OSError 98)
  ∧ bind_log (world_after (start_server incoming ctx w)) = bind_log w ++ [5000]
  ∧ listening (world_after (start_server incoming ctx w)) = listening w
  ∧ bound_ports (world_after (start_server incoming ctx w)) = bound_ports w
  ∧ wire (world_after (start_server incoming ctx w)) = wire w.
Proof.
  intros Hbusy. rewrite (start_server_busy incoming ctx w Hbusy). done.
Qed.

Lemma start_server_port_in_use_witness :
  (5000 ∈ bound_ports (with_bound_ports {[5000]} init_world))
  ∧ ending (start_server [GET "/testNYU" epoch] None
              (with_bound_ports {[5000]} init_world)) = Raise (OSError 98)
  ∧ bind_log (world_after (start_server [GET "/testNYU" epoch] None
                (with_bound_ports {[5000]} init_world)))
    = bind_log (with_bound_ports {[5000]} init_world) ++ [5000]
  ∧ listening (world_after (start_server [GET "/testNYU" epoch] None
                 (with_bound_ports {[5000]} init_world)))
    = listening (with_bound_ports {[5000]} init_world)
  ∧ bound_ports (world_after (start_server [GET "/testNYU" epoch] None
                   (with_bound_ports {[5000]} init_world)))
    = bound_ports (with_bound_ports {[5000]} init_world)
  ∧ wire (world_after (start_server [GET "/testNYU" epoch] None
            (with_bound_ports {[5000]} init_world)))
    = wire (with_bound_ports {[5000]} init_world).
Proof.
  split; [vm_compute; reflexivity |].
  apply (start_server_port_in_use [GET "/testNYU" epoch] None
           (with_bound_ports {[5000]} init_world)).
  vm_compute. reflexivity.
Defined.

(** C9.  When the environ of the request has no entry for
    werkzeug.server.shutdown, the lookup in [stop_server] gives [None] and
    calling it raises a TypeError; nothing is shut down, the world is as
    before.  Outside any request context the call fails even earlier, with
    flask's RuntimeError, again without touching the world. *)
Theorem stop_server_without_shutdown_callable (env : environ) w :
  env !! "werkzeug.server.shutdown" = None →
  default PyNone (env !! "werkzeug.server.shutdown") = PyNone
  ∧ stop_server (Some env) w =
      (Raise (TypeError "'NoneType' object is not callable"), w)
  ∧ stop_server None w =
      (Raise (RuntimeError "Working outside of request context."), w).
Proof.
  intros Hmissing.
  split; [rewrite Hmissing; reflexivity |].
  split; [| reflexivity].
  unfold stop_server, request_environ.
  rewrite bind_assoc. unfold bind at 1, ask. rewrite bind_ret_l.
  cbv zeta. rewrite Hmissing. reflexivity.
Qed.

Lemma stop_server_without_shutdown_callable_witness :
  ({[ "REQUEST_METHOD" := PyStr "GET" ]} : environ) !! "werkzeug.server.shutdown" = None
  ∧ default PyNone
      (({[ "REQUEST_METHOD" := PyStr "GET" ]} : environ) !! "werkzeug.server.shutdown")
    = PyNone
  ∧ stop_server (Some {[ "REQUEST_METHOD" := PyStr "GET" ]}) init_world =
      (Raise (TypeError "'NoneType' object is not callable"), init_world)
  ∧ stop_server None init_world =
      (Raise (RuntimeError "Working outside of request context."), init_world).
Proof.
  split; [reflexivity |].
  apply (stop_server_without_shutdown_callable
           {[ "REQUEST_METHOD" := PyStr "GET" ]} init_world).
  reflexivity.
Defined.

(** C10.  The handler of / leaves the visitor counter (indeed the whole
    world) as it found it.  Of all the requests the server answers, only
    those for /testNYU change the counter, each by one; the only other
    writer is [start_server]. *)
Theorem hello_world_keeps_counter ctx w :
  visitor_counter (world_after (hello_world ctx w)) = visitor_counter w
  ∧ world_after (hello_world ctx w) = w
  ∧ (∀ r, visitor_counter (world_after (dispatch webserver r ctx w)) =
          if decide (path r = "/testNYU") then visitor_counter w + 1
          else visitor_counter w)
  ∧ visitor_counter (world_after (stop_server ctx w)) = visitor_counter w.
Proof.
  split; [reflexivity |]. split; [reflexivity |]. split.
  - intros r. unfold dispatch. rewrite webserver_lookup.
    destruct (decide (path r = "/")) as [Hroot | Hroot].
    + rewrite decide_False by (rewrite Hroot; discriminate). reflexivity.
    + destruct (decide (path r = "/testNYU")); reflexivity.
  - unfold stop_server, request_environ. destruct ctx as [env |]; [| reflexivity].
    simpl. unfold bind, ask, ret. simpl.
    destruct (default PyNone (env !! "werkzeug.server.shutdown")); reflexivity.
Qed.

(** * Further properties of the cell *)

(** ** [stop_server] *)





(** ** Visitor numbers within a run *)

Lemma visitor_reply_inj k1 k2 : visitor_reply k1 = visitor_reply k2 → k1 = k2.
Proof.
  unfold visitor_reply, str_int. intros Heq. simplify_eq/=. reflexivity.
Qed.

(** X3.  Within one run no two requests for /testNYU get the same reply:
    every visitor is told a different number. *)
Theorem visitors_get_distinct_replies incoming ctx w :
  5000 ∉ bound_ports w →
  ∃ out,
    wire (world_after (start_server incoming ctx w)) = wire w ++ out
    ∧ NoDup (replies_to "/testNYU" out).
Proof.
  intros Hfree.
  destruct (start_server_free incoming ctx w Hfree)
    as (w' & out & Hrun & _ & _ & _ & _ & _ & Hwire & _ & _ & Hnyu).
  exists out. rewrite Hrun. split; [exact Hwire |].
  rewrite Hnyu. apply NoDup_fmap_2; [| apply NoDup_seqZ].
  intros k1 k2. apply visitor_reply_inj.
Qed.

Lemma visitors_get_distinct_replies_witness :
  (5000 ∉ bound_ports init_world)
  ∧ ∃ out,
      wire (world_after (start_server
        [GET "/testNYU" epoch; GET "/testNYU" epoch; GET "/" epoch; GET "/testNYU" epoch]
        None init_world)) = wire init_world ++ out
      ∧ NoDup (replies_to "/testNYU" out).
Proof.
  split; [apply not_elem_of_empty |].
  apply (visitors_get_distinct_replies _ None init_world). apply not_elem_of_empty.
Defined.

(** X4.  At every moment of a run the visitor counter equals the number of
    replies the run has sent for /testNYU so far. *)
Theorem counter_counts_replies incoming ctx w :
  5000 ∉ bound_ports w →
  ∃ out,
    wire (world_after (start_server incoming ctx w)) = wire w ++ out
    ∧ visitor_counter (world_after (start_server incoming ctx w))
      = Z.of_nat (length (replies_to "/testNYU" out)).
Proof.
  intros Hfree.
  destruct (start_server_free incoming ctx w Hfree)
    as (w' & out & Hrun & _ & _ & _ & _ & Hcount & Hwire & _ & _ & Hnyu).
  exists out. rewrite Hrun. split; [exact Hwire |].
  unfold world_after; simpl. rewrite Hcount, Hnyu, length_fmap, length_seqZ. lia.
Qed.

Lemma counter_counts_replies_witness :
  (5000 ∉ bound_ports (with_visitor_counter 41 init_world))
  ∧ ∃ out,
      wire (world_after (start_server
        [GET "/testNYU" epoch; GET "/nowhere" epoch; GET "/testNYU" epoch]
        None (with_visitor_counter 41 init_world)))
      = wire (with_visitor_counter 41 init_world) ++ out
      ∧ visitor_counter (world_after (start_server
          [GET "/testNYU" epoch; GET "/nowhere" epoch; GET "/testNYU" epoch]
          None (with_visitor_counter 41 init_world)))
        = Z.of_nat (length (replies_to "/testNYU" out)).
Proof.
  split; [apply not_elem_of_empty |].
  apply (counter_counts_replies _ None (with_visitor_counter 41 init_world)).
  apply not_elem_of_empty.
Defined.

(** ** Every request of a run is answered *)





(** ** Calling [start_server] while the server runs *)

(** X6.  A second call of [start_server] while the first one is serving
    fails with the bind error, but it has already set the visitor counter to
    0: the server of the first call keeps running, and its next reply to
    /testNYU says visitor 1 again, however many visitors it counted before. *)
Theorem second_start_fails_and_resets_counter l1 l2 ctx w :
  5000 ∉ bound_ports w →
  let w1 := world_after (start_server l1 ctx w) in
  let w2 := world_after (start_server l2 ctx w1) in
  ending (start_server l2 ctx w1) = Raise (OSError 98)
  ∧ server_state w2 = Running
  ∧ visitor_counter w2 = 0
  ∧ wire w2 = wire w1
  ∧ ∀ env d,
      wire (world_after (handle_request webserver (Request "/testNYU" env d) ctx w2))
      = wire w1 ++ [("/testNYU", visitor_reply 1)].
Proof.
  intros Hfree w1 w2. subst w2 w1.
  destruct (start_server_free l1 ctx w Hfree)
    as (w1 & out & Hrun & Hup & Hsig & Hports & _).
  rewrite Hrun. change (world_after (Blocked, w1)) with w1.
  assert (Hbusy : 5000 ∈ bound_ports w1).
  { rewrite Hports. apply elem_of_union_l, elem_of_singleton. reflexivity. }
  rewrite (start_server_busy l2 ctx w1 Hbusy).
  set (w2 := with_bind_log _ _).
  change (world_after (Raise (OSError 98), w2)) with w2.
  assert (Hsig2 : shutdown_signal w2 = false) by exact Hsig.
  split; [reflexivity |].
  split; [unfold server_state; simpl; rewrite Hup, Hsig; reflexivity |].
  split; [reflexivity |]. split; [reflexivity |].
  intros env d. rewrite (handle_request_webserver _ ctx w2 Hsig2). reflexivity.
Qed.

Lemma second_start_fails_and_resets_counter_witness :
  (5000 ∉ bound_ports init_world)
  ∧ ending (start_server [] None
      (world_after (start_server [GET "/testNYU" epoch; GET "/testNYU" epoch] None init_world)))
    = Raise (OSError 98)
  ∧ visitor_counter (world_after (start_server [] None
      (world_after (start_server [GET "/testNYU" epoch; GET "/testNYU" epoch] None init_world))))
    = 0.
Proof.
  split; [apply not_elem_of_empty |].
  destruct (second_start_fails_and_resets_counter
              [GET "/testNYU" epoch; GET "/testNYU" epoch] [] None init_world)
    as (Hend & _ & Hcount & _).
  { apply not_elem_of_empty. }
  split; [exact Hend | exact Hcount].
Defined.

(** ** The greeting and the date *)

Lemma fmt_0d_value (width : nat) (bound : Z) :
  forallb (λ n, bool_decide (digits_value (fmt_0d width n) = n)) (seqZ 0 bound) = true →
  ∀ n, 0 ≤ n < bound → digits_value (fmt_0d width n) = n.
Proof.
  intros Hall n Hn. rewrite forallb_forall in Hall.
  eapply bool_decide_eq_true_1, Hall, list_elem_of_In, elem_of_seqZ. lia.
Qed.

Lemma fmt_0d_4_value n : 0 ≤ n < 10000 → digits_value (fmt_0d 4 n) = n.
Proof. apply fmt_0d_value. vm_compute. reflexivity. Qed.

Lemma fmt_0d_2_value n : 0 ≤ n < 100 → digits_value (fmt_0d 2 n) = n.
Proof. apply fmt_0d_value. vm_compute. reflexivity. Qed.

Lemma iso_join_parts (a b c : string) :
  digits_n 4 a = true → digits_n 2 b = true → digits_n 2 c = true →
  String.substring 0 4 (a +:+ "-" +:+ b +:+ "-" +:+ c) = a
  ∧ String.substring 5 2 (a +:+ "-" +:+ b +:+ "-" +:+ c) = b
  ∧ String.substring 8 2 (a +:+ "-" +:+ b +:+ "-" +:+ c) = c.
Proof.
  intros Ha Hb Hc.
  destruct a as [| a1 [| a2 [| a3 [| a4 [| ? ?]]]]]; simpl in Ha;
    try discriminate; try (rewrite ?andb_false_r in Ha; discriminate).
  destruct b as [| b1 [| b2 [| ? ?]]]; simpl in Hb;
    try discriminate; try (rewrite ?andb_false_r in Hb; discriminate).
  destruct c as [| c1 [| c2 [| ? ?]]]; simpl in Hc;
    try discriminate; try (rewrite ?andb_false_r in Hc; discriminate).
  repeat split.
Qed.

(** A valid date can be read back from its ISO form. *)
Lemma iso_fields_isoformat d : valid_date d = true → iso_fields (isoformat d) = d.
Proof.
  unfold valid_date. rewrite !andb_true_iff, !bool_decide_eq_true.
  intros [[Hy Hm] Hd]. pose proof (days_in_month_le (year d) (month d)).
  destruct (iso_join_parts (fmt_0d 4 (year d)) (fmt_0d 2 (month d)) (fmt_0d 2 (day d)))
    as (Hyear & Hmonth & Hday);
    [apply fmt_0d_4_digits; lia | apply fmt_0d_2_digits; lia | apply fmt_0d_2_digits; lia |].
  unfold iso_fields, isoformat. rewrite Hyear, Hmonth, Hday.
  rewrite fmt_0d_4_value, !fmt_0d_2_value by lia. destruct d; reflexivity.
Qed.

(** X7.  The text returned by the handler of / determines the date: two
    invocations on valid dates return the same greeting only if they ran on
    the same date, and the date can be read back from the last ten
    characters of the greeting. *)
Theorem greeting_determines_date ctx1 ctx2 w1 w2 :
  valid_date (clock w1) = true →
  valid_date (clock w2) = true →
  (ending (hello_world ctx1 w1) = ending (hello_world ctx2 w2) → clock w1 = clock w2)
  ∧ ∃ text, ending (hello_world ctx1 w1) = Ret text
      ∧ iso_fields (String.substring 23 10 text) = clock w1.
Proof.
  intros Hd1 Hd2. rewrite !hello_world_run. unfold ending. cbn [fst]. split.
  - intros Heq. simplify_eq/=.
    rewrite <- (iso_fields_isoformat (clock w1) Hd1), <- (iso_fields_isoformat (clock w2) Hd2).
    congruence.
  - eexists. split; [reflexivity |].
    pose proof (isoformat_shaped (clock w1) Hd1) as Hshape.
    unfold iso_shaped in Hshape. rewrite !andb_true_iff, bool_decide_eq_true in Hshape.
    destruct Hshape as [_ Hlen].
    rewrite <- (iso_fields_isoformat (clock w1) Hd1) at 2. f_equal.
    change ("Hello Panos, it is now " +:+ isoformat (clock w1))
      with ("Hello Panos, it is now " +:+ isoformat (clock w1))%string.
    cbn [String.append String.substring].
    generalize dependent (isoformat (clock w1)). intros s Hlen.
    do 10 (destruct s as [| ? s]; [discriminate |]).
    destruct s; [| discriminate]. reflexivity.
Qed.

Lemma greeting_determines_date_witness :
  (ending (hello_world None (with_clock (Date 2017 3 7) init_world))
   = ending (hello_world None (with_clock (Date 2017 3 7) init_world)) →
   clock (with_clock (Date 2017 3 7) init_world) = clock (with_clock (Date 2017 3 7) init_world))
  ∧ ∃ text, ending (hello_world None (with_clock (Date 2017 3 7) init_world)) = Ret text
      ∧ iso_fields (String.substring 23 10 text) = clock (with_clock (Date 2017 3 7) init_world).
Proof.
  apply (greeting_determines_date None None
           (with_clock (Date 2017 3 7) init_world) (with_clock (Date 2017 3 7) init_world));
    reflexivity.
Defined.

(** * The walk-forward forecast *)

Section WalkForwardFacts.

Context {V E : Type}.
Variable fit_forecast : list V → V + E.

(** What the loop has done when it is left, whether at the end of the test
    values or by an exception: it has gone through the first [k] of them. *)
Lemma walk_forward_spec (X_test : list V) : ∀ (i : nat) (st : wf_state V),
  ∃ (k : nat) (ys : list V),
    (k ≤ length X_test)%nat
    ∧ length ys = k
    ∧ X_train (walk_forward fit_forecast i X_test st).1 = X_train st ++ take k X_test
    ∧ predictions (walk_forward fit_forecast i X_test st).1 = predictions st ++ ys
    ∧ printed (walk_forward fit_forecast i X_test st).1 =
        printed st ++ take (10 - i) (imap (λ j yv, ((i + j)%nat, yv.1, yv.2)) (zip ys X_test))
    ∧ (∀ (j : nat) y, ys !! j = Some y →
         fit_forecast (X_train st ++ take j X_test) = inl y)
    ∧ ((walk_forward fit_forecast i X_test st).2 = None → k = length X_test)
    ∧ (∀ e, (walk_forward fit_forecast i X_test st).2 = Some e →
         (k < length X_test)%nat
         ∧ fit_forecast (X_train st ++ take k X_test) = inr e).
Proof.
  induction X_test as [| val rest IH]; intros i st.
  - exists 0%nat, []. simpl. rewrite !app_nil_r, take_nil.
    repeat split; try done. rewrite app_nil_r. reflexivity.
  - simpl. destruct (fit_forecast (X_train st)) as [y_pred | e] eqn:Hfit.
    + set (st1 := WfState _ _ _).
      destruct (IH (S i) st1) as (k & ys & Hk & Hlen & Htrain & Hpred & Hprint & Hpast & Hend & Herr).
      exists (S k), (y_pred :: ys).
      split; [simpl; lia |]. split; [simpl; lia |].
      split; [rewrite Htrain; simpl; rewrite <- app_assoc; reflexivity |].
      split; [rewrite Hpred; simpl; rewrite <- app_assoc; reflexivity |].
      split.
      { rewrite Hprint. subst st1. cbn [printed zip zip_with]. rewrite imap_cons.
        cbn [fst snd]. rewrite Nat.add_0_r.
        rewrite (imap_ext (λ j yv, ((S i + j)%nat, yv.1, yv.2))
                          ((λ j yv, ((i + j)%nat, yv.1, yv.2)) ∘ S))
          by (intros j yv _; simpl; do 2 f_equal; lia).
        case_bool_decide as Hi.
        - replace (10 - i)%nat with (S (10 - S i)) by lia.
          rewrite <- app_assoc. reflexivity.
        - replace (10 - i)%nat with 0%nat by lia.
          replace (10 - S i)%nat with 0%nat by lia. reflexivity. }
      split.
      { intros [| j] y Hj; simpl in Hj.
        - injection Hj as <-. rewrite take_0, app_nil_r. exact Hfit.
        - specialize (Hpast j y Hj). subst st1. simpl in Hpast.
          rewrite <- app_assoc in Hpast. exact Hpast. }
      split; [intros Hnone; rewrite (Hend Hnone); reflexivity |].
      intros e He. destruct (Herr e He) as [Hlt Hfail].
      split; [simpl; lia |]. subst st1. simpl in Hfail.
      rewrite <- app_assoc in Hfail. exact Hfail.
    + exists 0%nat, []. cbn [length take zip zip_with imap fst snd].
      rewrite take_nil, !app_nil_r.
      split; [lia |]. split; [reflexivity |].
      split; [reflexivity |]. split; [reflexivity |]. split; [reflexivity |].
      split; [intros j y [=] |]. split; [intros [=] |].
      intros e' [= <-]. split; [lia | exact Hfit].
Qed.

(** X8.  The forecasting loop never looks ahead: it is left after some
    number [k] of test values, with exactly [k] predictions, the [j]-th of
    them being the forecast fitted on the training values followed by the
    first [j] test values only.  It ends normally exactly when it has gone
    through all test values; an exception of the fit at value [k] leaves
    the [k] predictions made so far and the training list grown by [k]. *)
Theorem walk_forward_uses_only_the_past (X_train0 X_test : list V) :
  ∃ k : nat,
    (k ≤ length X_test)%nat
    ∧ length (predictions (forecast_cell fit_forecast X_train0 X_test).1) = k
    ∧ X_train (forecast_cell fit_forecast X_train0 X_test).1 = X_train0 ++ take k X_test
    ∧ (∀ (j : nat) y,
         predictions (forecast_cell fit_forecast X_train0 X_test).1 !! j = Some y →
         fit_forecast (X_train0 ++ take j X_test) = inl y)
    ∧ ((forecast_cell fit_forecast X_train0 X_test).2 = None ↔ k = length X_test)
    ∧ (∀ e, (forecast_cell fit_forecast X_train0 X_test).2 = Some e →
         fit_forecast (X_train0 ++ take k X_test) = inr e).
Proof.
  unfold forecast_cell.
  destruct (walk_forward_spec X_test 0 (WfState X_train0 [] []))
    as (k & ys & Hk & Hlen & Htrain & Hpred & _ & Hpast & Hend & Herr).
  simpl in Htrain, Hpred, Hpast, Herr.
  exists k. rewrite Hpred.
  split; [exact Hk |]. split; [exact Hlen |]. split; [exact Htrain |].
  split; [exact Hpast |]. split.
  - split; [exact Hend |]. intros ->.
    destruct (walk_forward _ _ _ _).2 as [e |] eqn:He; [| reflexivity].
    destruct (Herr e eq_refl) as [Hlt _]. lia.
  - intros e He. apply (Herr e He).
Qed.

(** X9.  The loop prints a line for the first ten predictions and no more:
    line [j] shows the index [j], the [j]-th prediction and the [j]-th test
    value. *)
Theorem walk_forward_prints_first_ten (X_train0 X_test : list V) :
  printed (forecast_cell fit_forecast X_train0 X_test).1 =
    take 10 (imap (λ j yv, (j, yv.1, yv.2))
               (zip (predictions (forecast_cell fit_forecast X_train0 X_test).1) X_test))
  ∧ (length (printed (forecast_cell fit_forecast X_train0 X_test).1) ≤ 10)%nat.
Proof.
  unfold forecast_cell.
  destruct (walk_forward_spec X_test 0 (WfState X_train0 [] []))
    as (k & ys & _ & _ & _ & Hpred & Hprint & _).
  simpl in Hpred, Hprint. rewrite Hpred, Hprint.
  split; [reflexivity |]. rewrite length_take. lia.
Qed.

(** X10.  When no fit fails, the split followed by the loop gives the
    series back: at the end [X_train] is the whole list of values again, and
    there is one prediction for each test value, that is
    [len(values) - n] of them. *)
Theorem split_then_walk_forward_restores_series (n : nat) (values : list V) :
  (forecast_cell fit_forecast (split_cell n values).1 (split_cell n values).2).2 = None →
  X_train (forecast_cell fit_forecast (split_cell n values).1 (split_cell n values).2).1
    = values
  ∧ length (predictions
      (forecast_cell fit_forecast (split_cell n values).1 (split_cell n values).2).1)
    = length (split_cell n values).2
  ∧ length (split_cell n values).2 = (length values - n)%nat.
Proof.
  unfold forecast_cell, split_cell. cbn [fst snd]. intros Hnone.
  destruct (walk_forward_spec (drop n values) 0 (WfState (take n values) [] []))
    as (k & ys & _ & Hlen & Htrain & Hpred & _ & _ & Hend & _).
  simpl in Htrain, Hpred. rewrite Htrain, Hpred.
  split; [rewrite (Hend Hnone), firstn_all, take_drop; reflexivity |].
  split; [rewrite Hlen; exact (Hend Hnone) | apply length_drop].
Qed.

End WalkForwardFacts.

Lemma split_then_walk_forward_restores_series_witness :
  X_train (forecast_cell persistence_forecast
             (split_cell 3 [14; 15; 13; 12; 16]).1 (split_cell 3 [14; 15; 13; 12; 16]).2).1
    = [14; 15; 13; 12; 16]
  ∧ length (predictions (forecast_cell persistence_forecast
             (split_cell 3 [14; 15; 13; 12; 16]).1 (split_cell 3 [14; 15; 13; 12; 16]).2).1)
    = length (split_cell 3 [14; 15; 13; 12; 16]).2
  ∧ length (split_cell 3 [14; 15; 13; 12; 16]).2 = (length [14; 15; 13; 12; 16] - 3)%nat.
Proof.
  apply (split_then_walk_forward_restores_series persistence_forecast 3 [14; 15; 13; 12; 16]).
  reflexivity.
Defined.

(** * The Monte Carlo cell *)

Section MonteCarloFacts.

Context {C DF Err : Type}.
Variable draw : nat → C.
Variable df_insert : DF → nat → string → C → DF + Err.
Variable df_columns : DF → list (string * C).

(** What the cell relies on from pandas: inserting a column with a new name
    at a position up to the number of columns succeeds and puts the column
    at that position. *)
Hypothesis df_insert_fresh : ∀ df loc name col,
  (loc ≤ length (df_columns df))%nat →
  name ∉ (df_columns df).*1 →
  ∃ df', df_insert df loc name col = inl df'
         ∧ df_columns df' = take loc (df_columns df) ++ (name, col) :: drop loc (df_columns df).

Lemma run_name_inj (x y : nat) : (run_column draw x).1 = (run_column draw y).1 → x = y.
Proof.
  unfold run_column, str_int. cbn [fst]. intros Heq. simplify_eq/=. reflexivity.
Qed.

Lemma insert_runs_spec (count : nat) : ∀ (start : nat) (df : DF),
  df_columns df = run_column draw <$> seq 0 start →
  ∃ df', insert_runs draw df_insert (seq start count) df = inl df'
         ∧ df_columns df' = run_column draw <$> seq 0 (start + count).
Proof.
  induction count as [| count IH]; intros start df Hcols.
  - exists df. rewrite Nat.add_0_r. split; [reflexivity | exact Hcols].
  - cbn [seq insert_runs].
    destruct (df_insert_fresh df start ("Run" +:+ str_int (Z.of_nat start)) (draw start))
      as (df1 & Hins & Hcols1).
    + rewrite Hcols, length_fmap, length_seq. lia.
    + rewrite Hcols, <- list_fmap_compose. intros Hin.
      apply list_elem_of_fmap in Hin as (y & Hname & Hy).
      apply elem_of_seq in Hy. apply (run_name_inj start y) in Hname. lia.
    + rewrite Hins.
      destruct (IH (S start) df1) as (df' & Hrun & Hcols').
      * rewrite Hcols1, Hcols.
        rewrite firstn_all2 by (rewrite length_fmap, length_seq; lia).
        rewrite drop_ge by (rewrite length_fmap, length_seq; lia).
        rewrite seq_S, fmap_app. reflexivity.
      * exists df'. split; [exact Hrun |].
        rewrite Hcols'. f_equal. f_equal. lia.
Qed.

(** X11.  Starting from a data frame without columns, the loop of the cell
    never makes [df.insert] fail: round [x] inserts at the position just
    after the last column, under a name no earlier round has used.  The
    result has the 1000 columns Run0, ..., Run999 in this order, column
    [x] holding the walk of round [x], and no name occurs twice. *)
Theorem monte_carlo_cell_fills_runs (df_empty : DF) :
  df_columns df_empty = [] →
  ∃ df,
    monte_carlo_cell draw df_insert df_empty = inl df
    ∧ df_columns df = (λ x, ("Run" +:+ str_int (Z.of_nat x), draw x)) <$> seq 0 1000
    ∧ NoDup (df_columns df).*1.
Proof.
  intros Hempty. unfold monte_carlo_cell.
  destruct (insert_runs_spec 1000 0 df_empty Hempty) as (df & Hrun & Hcols).
  exists df. split; [exact Hrun |]. split; [exact Hcols |].
  rewrite Hcols, <- list_fmap_compose.
  apply NoDup_fmap_2; [| apply NoDup_seq].
  intros x y. apply run_name_inj.
Qed.

End MonteCarloFacts.

Lemma columns_insert_fresh {C} (df : list (string * C)) loc name col :
  (loc ≤ length df)%nat →
  name ∉ df.*1 →
  ∃ df', columns_insert df loc name col = inl df'
         ∧ df' = take loc df ++ (name, col) :: drop loc df.
Proof.
  intros Hloc Hname. unfold columns_insert.
  rewrite bool_decide_eq_true_2 by exact Hloc.
  rewrite bool_decide_eq_false_2 by exact Hname.
  eexists. split; reflexivity.
Qed.

Lemma monte_carlo_cell_fills_runs_witness :
  ∃ df : list (string * nat),
    monte_carlo_cell (λ x, x) columns_insert [] = inl df
    ∧ df = (λ x, ("Run" +:+ str_int (Z.of_nat x), x)) <$> seq 0 1000
    ∧ NoDup df.*1.
Proof.
  apply (monte_carlo_cell_fills_runs (λ x, x) columns_insert (λ df, df)
           columns_insert_fresh []).
  reflexivity.
Defined.

(** * The Spotify cells *)

(** X12.  The header for the search is built exactly when the token
    response is an object whose access_token is a string, and then it is the
    single entry Authorization: Bearer <token>.  A response object without
    that key, such as an error answer, raises KeyError for access_token. *)
Theorem auth_header_iff_token (auth_data : json) :
  (∀ h, auth_header auth_data = inl h
        ↔ ∃ fields token,
            auth_data = JDict fields
            ∧ fields !! "access_token" = Some (JStr token)
            ∧ h = {[ "Authorization" := "Bearer " +:+ token ]})
  ∧ (∀ fields,
       auth_data = JDict fields →
       fields !! "access_token" = None →
       auth_header auth_data = inr (KeyError "access_token")).
Proof.
  split.
  - intros h. unfold auth_header, getitem_str. split.
    + destruct auth_data as [| | | | | | fields]; try discriminate.
      destruct (fields !! "access_token") as [[| | | | token | |] |] eqn:Hget;
        try discriminate.
      intros [= <-]. exists fields, token. auto.
    + intros (fields & token & -> & Hget & ->). rewrite Hget. reflexivity.
  - intros fields -> Hget. unfold auth_header, getitem_str. rewrite Hget. reflexivity.
Qed.

Lemma auth_header_iff_token_witness :
  auth_header (JDict {[ "error" := JStr "invalid_client" ]}) = inr (KeyError "access_token")
  ∧ auth_header (JDict {[ "access_token" := JStr "BQDx"; "expires_in" := JInt 3600 ]})
    = inl {[ "Authorization" := "Bearer BQDx" ]}.
Proof.
  split.
  - destruct (auth_header_iff_token (JDict {[ "error" := JStr "invalid_client" ]}))
      as [_ Hmissing].
    apply (Hmissing {[ "error" := JStr "invalid_client" ]}); reflexivity.
  - destruct (auth_header_iff_token
                (JDict {[ "access_token" := JStr "BQDx"; "expires_in" := JInt 3600 ]}))
      as [Hiff _].
    apply Hiff. eexists _, _. split; [reflexivity |]. split; reflexivity.
Defined.

(** X13.  When the search response has the usual shape, a tracks object
    with a list of items, the first returned track is the head of that list;
    a search without results raises IndexError, and a response without
    tracks raises KeyError for tracks. *)
Theorem first_returned_track_of_items (response : json) fields :
  response = JDict fields →
  (∀ tracks items,
     fields !! "tracks" = Some (JDict tracks) →
     tracks !! "items" = Some (JList items) →
     first_returned_track response =
       match items with
       | [] => inr IndexError
       | track :: _ => inl track
       end)
  ∧ (fields !! "tracks" = None → first_returned_track response = inr (KeyError "tracks")).
Proof.
  intros ->. unfold first_returned_track, getitem_str. split.
  - intros tracks items Htracks Hitems. rewrite Htracks, Hitems.
    destruct items; reflexivity.
  - intros Htracks. rewrite Htracks. reflexivity.
Qed.

Lemma first_returned_track_of_items_witness :
  first_returned_track
    (JDict {[ "tracks" := JDict {[ "items" := JList []; "total" := JInt 0 ]} ]})
  = inr IndexError.
Proof.
  destruct (first_returned_track_of_items
              (JDict {[ "tracks" := JDict {[ "items" := JList []; "total" := JInt 0 ]} ]})
              {[ "tracks" := JDict {[ "items" := JList []; "total" := JInt 0 ]} ]} eq_refl)
    as [Hitems _].
  apply (Hitems {[ "items" := JList []; "total" := JInt 0 ]} []); reflexivity.
Defined.
